(** * The Apprise runner (src/worker/external-notifications/apprise-runner.py)

    A shallow embedding of the one-shot notification adapter: it decodes a
    JSON request from standard input, validates its shape, registers the
    destination URLs with an Apprise client, sends one notification and
    reports the outcome as one JSON line on standard output.

    The two libraries the script calls are not part of it:
    - [json.load] is represented by its outcome ([stdin_content]);
    - the Apprise client and [str.lower] are taken as an interface ([Host])
      over which every theorem is quantified. *)

From Stdlib Require Import List String Ascii ZArith NArith Bool Lia.
From Stdlib Require Import Floats.SpecFloat.
From Stdlib Require Import DecimalString DecimalNat.
Import ListNotations.

Local Open Scope string_scope.
Local Open Scope list_scope.
Set Warnings "-register-all".

(** ** Python values *)

(** A Python [str] is a sequence of Unicode code points. *)
Definition codepoint := N.
Definition pystr := list codepoint.

(** The [str] denoted by an ASCII literal of the source. *)
Fixpoint py (s : string) : pystr :=
  match s with
  | EmptyString => []
  | String c rest => N_of_ascii c :: py rest
  end.

Fixpoint pystr_eqb (a b : pystr) : bool :=
  match a, b with
  | [], [] => true
  | x :: a', y :: b' => N.eqb x y && pystr_eqb a' b'
  | _, _ => false
  end.

(** What [json.load] can produce: [None], [bool], [int], [float], [str],
    [list] and [dict] with [str] keys.  A [dict] is kept as an association
    list in which the first binding of a key is the one the dict holds. *)
Inductive value : Type :=
| VNone
| VBool (b : bool)
| VInt (z : Z)
| VFloat (f : spec_float)
| VStr (s : pystr)
| VList (items : list value)
| VDict (entries : list (pystr * value)).

(** [type(v).__name__], as it appears in an [AttributeError]. *)
Definition type_name (v : value) : string :=
  match v with
  | VNone => "NoneType"
  | VBool _ => "bool"
  | VInt _ => "int"
  | VFloat _ => "float"
  | VStr _ => "str"
  | VList _ => "list"
  | VDict _ => "dict"
  end.

(** Truth value testing, as used by [or], [not] and [if]. *)
Definition truthy (v : value) : bool :=
  match v with
  | VNone => false
  | VBool b => b
  | VInt z => negb (Z.eqb z 0)
  | VFloat (S754_zero _) => false
  | VFloat _ => true
  | VStr s => match s with [] => false | _ => true end
  | VList l => match l with [] => false | _ => true end
  | VDict d => match d with [] => false | _ => true end
  end.

(** [a or b] *)
Definition py_or (a b : value) : value := if truthy a then a else b.

Definition isinstance_list (v : value) : bool :=
  match v with VList _ => true | _ => false end.

Definition isinstance_str (v : value) : bool :=
  match v with VStr _ => true | _ => false end.

Fixpoint dict_get (d : list (pystr * value)) (k : pystr) : option value :=
  match d with
  | [] => None
  | (k', v) :: rest => if pystr_eqb k' k then Some v else dict_get rest k
  end.

(** ** [str.strip()] *)

(** The code points for which [str.isspace] holds; [strip()] without an
    argument removes exactly these from both ends. *)
Definition is_space (c : codepoint) : bool :=
  (((9 <=? c) && (c <=? 13)) || ((28 <=? c) && (c <=? 32))
   || (c =? 133) || (c =? 160) || (c =? 5760)
   || ((8192 <=? c) && (c <=? 8202))
   || (c =? 8232) || (c =? 8233) || (c =? 8239) || (c =? 8287)
   || (c =? 12288))%N.

Fixpoint lstrip (s : pystr) : pystr :=
  match s with
  | c :: rest => if is_space c then lstrip rest else s
  | [] => []
  end.

Definition rstrip (s : pystr) : pystr := rev (lstrip (rev s)).

Definition strip (s : pystr) : pystr := rstrip (lstrip s).

(** ** [json.dumps] on the objects the script prints *)

Inductive jval : Type :=
| JBool (b : bool)
| JInt (n : nat)
| JStr (s : string).

Definition chr (n : nat) : string := String (ascii_of_nat n) EmptyString.

Definition hex_digit (n : nat) : string :=
  chr (if Nat.ltb n 10 then 48 + n else 87 + n).

(** One character of a [str] under [ensure_ascii=True]. *)
Definition escape_char (c : ascii) : string :=
  let n := nat_of_ascii c in
  if Nat.eqb n 34 then chr 92 ++ chr 34
  else if Nat.eqb n 92 then chr 92 ++ chr 92
  else if Nat.eqb n 10 then chr 92 ++ "n"
  else if Nat.eqb n 13 then chr 92 ++ "r"
  else if Nat.eqb n 9 then chr 92 ++ "t"
  else if Nat.eqb n 8 then chr 92 ++ "b"
  else if Nat.eqb n 12 then chr 92 ++ "f"
  else if Nat.ltb n 32 || Nat.ltb 126 n
       then chr 92 ++ "u00" ++ hex_digit (n / 16) ++ hex_digit (n mod 16)
  else String c EmptyString.

Fixpoint escape (s : string) : string :=
  match s with
  | EmptyString => EmptyString
  | String c rest => escape_char c ++ escape rest
  end.

Definition dumps_str (s : string) : string := chr 34 ++ escape s ++ chr 34.

Definition dumps_val (v : jval) : string :=
  match v with
  | JBool true => "true"
  | JBool false => "false"
  | JInt n => NilEmpty.string_of_uint (Nat.to_uint n)
  | JStr s => dumps_str s
  end.

Fixpoint dumps_items (kvs : list (string * jval)) : string :=
  match kvs with
  | [] => ""
  | [(k, v)] => dumps_str k ++ ": " ++ dumps_val v
  | (k, v) :: rest => dumps_str k ++ ": " ++ dumps_val v ++ ", " ++ dumps_items rest
  end.

(** [json.dumps(d)] for a [dict] literal [d], with the default separators. *)
Definition json_dumps (kvs : list (string * jval)) : string :=
  "{" ++ dumps_items kvs ++ "}".

Definition newline : string := chr 10.

(** ** The collaborators *)

(** A call into the library either raises an [Exception] (kept as its
    [str(exc)]) or returns a value. *)
Definition lib_result : Type := pystr + value.

(** What the script consumes from outside: [str.lower], the constructor
    [apprise.Apprise()], and the two methods it calls on the client.  The
    client is a mutable object, so each method also yields its next state. *)
Class Host : Type := {
  str_lower : pystr -> pystr;
  Apobj : Type;
  Apprise : Apobj;
  apobj_add : Apobj -> pystr -> lib_result * Apobj;
  apobj_notify : Apobj -> value -> value -> value -> lib_result * Apobj
}.

(** The calls made on the client, in order, with what came back. *)
Inductive lib_event : Type :=
| CallAdd (url : pystr) (r : lib_result)
| CallNotify (title body notify_type : value) (r : lib_result).

(** ** Exceptions and the process state *)

Inductive exn : Type :=
| SystemExit (code : Z)
| ValueError (msg : pystr)
| AttributeError (obj_type attr : string)
| LibraryError (msg : pystr).

(** [str(exc)] *)
Definition str_exc (e : exn) : pystr :=
  match e with
  | SystemExit code => py (NilEmpty.string_of_int (Z.to_int code))
  | ValueError msg => msg
  | AttributeError t a =>
      py ("'" ++ t ++ "' object has no attribute '" ++ a ++ "'")
  | LibraryError msg => msg
  end.

(** [isinstance(e, Exception)]: [SystemExit] derives from [BaseException]
    only. *)
Definition is_Exception (e : exn) : bool :=
  match e with SystemExit _ => false | _ => true end.

(** What reaches the error stream: text the script writes, or the
    traceback the interpreter prints for an exception nobody caught. *)
Inductive err_item : Type :=
| Text (s : pystr)
| Traceback (e : exn).

(** What [json.load(sys.stdin)] does with the bytes on standard input. *)
Inductive stdin_content : Type :=
| Malformed (why : pystr)
| Decodes (payload : value).

Section Runner.
Context {host : Host}.

(** Both standard streams are buffered: [write] appends to the pending
    part, [flush] hands it over. *)
Record world : Type := mkWorld {
  stdout_pending : string;
  stdout_flushed : string;
  stderr_pending : list err_item;
  stderr_flushed : list err_item;
  apobj : Apobj;
  calls : list lib_event
}.

Definition M (A : Type) : Type := world -> (exn + A) * world.

Definition ret {A} (a : A) : M A := fun w => (inr a, w).

Definition bind {A B} (m : M A) (k : A -> M B) : M B :=
  fun w => match m w with
           | (inr a, w') => k a w'
           | (inl e, w') => (inl e, w')
           end.

Definition raise {A} (e : exn) : M A := fun w => (inl e, w).

(** [try: m  except Exception [as e]: h e] *)
Definition try_except {A} (m : M A) (h : exn -> M A) : M A :=
  fun w => match m w with
           | (inl e, w') => if is_Exception e then h e w' else (inl e, w')
           | r => r
           end.

Definition when (c : bool) (m : M unit) : M unit := if c then m else ret tt.

End Runner.

Declare Scope py_scope.
Delimit Scope py_scope with py.
Notation "x <- m ;; k" := (bind m (fun x => k))
  (at level 61, m at next level, right associativity) : py_scope.
Notation "m ;; k" := (bind m (fun _ => k))
  (at level 61, right associativity) : py_scope.
Local Open Scope py_scope.

Section Program.
Context {host : Host}.

Definition stdout_write (s : string) : M unit := fun w =>
  (inr tt, mkWorld (stdout_pending w ++ s) (stdout_flushed w)
                   (stderr_pending w) (stderr_flushed w) (apobj w) (calls w)).

Definition stdout_flush : M unit := fun w =>
  (inr tt, mkWorld "" (stdout_flushed w ++ stdout_pending w)
                   (stderr_pending w) (stderr_flushed w) (apobj w) (calls w)).

Definition stderr_write (s : pystr) : M unit := fun w =>
  (inr tt, mkWorld (stdout_pending w) (stdout_flushed w)
                   (stderr_pending w ++ [Text s]) (stderr_flushed w)
                   (apobj w) (calls w)).

Definition stderr_flush : M unit := fun w =>
  (inr tt, mkWorld (stdout_pending w) (stdout_flushed w)
                   [] (stderr_flushed w ++ stderr_pending w)
                   (apobj w) (calls w)).

(** [json.load(sys.stdin)] *)
Definition json_load (i : stdin_content) : M value :=
  match i with
  | Malformed why => raise (ValueError why)
  | Decodes v => ret v
  end.

(** [obj.get(key)]: only a [dict] has the method. *)
Definition py_get (obj : value) (key : string) : M value :=
  match obj with
  | VDict d => ret (match dict_get d (py key) with Some v => v | None => VNone end)
  | _ => raise (AttributeError (type_name obj) "get")
  end.

(** [obj.lower()]: only a [str] has the method. *)
Definition py_lower (obj : value) : M value :=
  match obj with
  | VStr s => ret (VStr (str_lower s))
  | _ => raise (AttributeError (type_name obj) "lower")
  end.

(** [apprise.Apprise()] *)
Definition new_Apprise : M unit := fun w =>
  (inr tt, mkWorld (stdout_pending w) (stdout_flushed w)
                   (stderr_pending w) (stderr_flushed w) Apprise (calls w)).

Definition record_call (ev : lib_event) (ap : Apobj) (w : world) : world :=
  mkWorld (stdout_pending w) (stdout_flushed w)
          (stderr_pending w) (stderr_flushed w) ap (calls w ++ [ev]).

Definition deliver (r : lib_result) : exn + value :=
  match r with
  | inl msg => inl (LibraryError msg)
  | inr v => inr v
  end.

(** [apobj.add(url)] *)
Definition call_add (url : pystr) : M value := fun w =>
  let '(r, ap) := apobj_add (apobj w) url in
  (deliver r, record_call (CallAdd url r) ap w).

(** [apobj.notify(title=..., body=..., notify_type=...)] *)
Definition call_notify (title body notify_type : value) : M value := fun w =>
  let '(r, ap) := apobj_notify (apobj w) title body notify_type in
  (deliver r, record_call (CallNotify title body notify_type r) ap w).

(** ** The script *)

Definition error_object (message : string) : list (string * jval) :=
  [("success", JBool false); ("error", JStr message)].

Definition result_object (ok : bool) (added : nat) : list (string * jval) :=
  [("success", JBool ok); ("destinations", JInt added)].

Definition _fail {A} (message : string) (exit_code : Z) : M A :=
  stdout_write (json_dumps (error_object message) ++ newline) ;;
  stdout_flush ;;
  raise (SystemExit exit_code).

Definition notify_types : list pystr :=
  [py "info"; py "success"; py "warning"; py "failure"].

(** [x in {"info", "success", "warning", "failure"}] *)
Definition in_notify_types (v : value) : bool :=
  match v with
  | VStr s => existsb (pystr_eqb s) notify_types
  | _ => false
  end.

(** The [for raw in urls] loop, [added] being its counter. *)
Fixpoint register (urls : list value) (added : nat) : M nat :=
  match urls with
  | [] => ret added
  | raw :: rest =>
      match raw with
      | VStr s =>
          let url := strip s in
          if negb (truthy (VStr url)) then register rest added
          else
            added' <- try_except
                        (r <- call_add url ;;
                         ret (if truthy r then S added else added))
                        (fun _ => ret added) ;;
            register rest added'
      | _ => register rest added
      end
  end.

Definition main (stdin : stdin_content) : M unit :=
  payload <- try_except (json_load stdin)
                        (fun _ => _fail "Invalid JSON payload" 1) ;;
  u <- py_get payload "urls" ;;
  let urls := py_or u (VList []) in
  when (negb (isinstance_list urls)) (_fail "Invalid urls: expected list" 1) ;;
  t <- py_get payload "title" ;;
  let title := py_or t (VStr []) in
  b <- py_get payload "body" ;;
  let body := py_or b (VStr []) in
  n <- py_get payload "notifyType" ;;
  notify_type <- py_lower (py_or n (VStr (py "info"))) ;;
  let notify_type :=
    if negb (in_notify_types notify_type) then VStr (py "info")
    else notify_type in
  when (negb (isinstance_str title) || negb (isinstance_str body))
       (_fail "Invalid title/body" 1) ;;
  new_Apprise ;;
  added <- register (match urls with VList l => l | _ => [] end) 0 ;;
  when (Nat.eqb added 0) (_fail "No valid notification destinations" 1) ;;
  ok <- try_except
          (r <- call_notify title body notify_type ;; ret (truthy r))
          (fun exc =>
             stderr_write (py "Apprise notify failed: " ++ str_exc exc
                             ++ py newline) ;;
             stderr_flush ;;
             _fail "Apprise notify failed" 1) ;;
  stdout_write (json_dumps (result_object ok added) ++ newline) ;;
  stdout_flush ;;
  raise (SystemExit (if ok then 0 else 1)).

(** ** Running the script as a process *)

Record outcome : Type := mkOutcome {
  stdout : string;
  stderr : list err_item;
  exit_code : Z;
  library_calls : list lib_event
}.

(** No client exists before [main] builds one; the field holds a fresh
    one until then. *)
Definition start : world := mkWorld "" "" [] [] Apprise [].

(** [if __name__ == "__main__": main()].  The interpreter turns a
    [SystemExit] into the exit status, reports any other exception that
    reaches the top with a traceback and status 1, and flushes what is
    still buffered. *)
Definition python_run (stdin : stdin_content) : outcome :=
  let '(r, w) := main stdin start in
  let out := (stdout_flushed w ++ stdout_pending w)%string in
  let err := stderr_flushed w ++ stderr_pending w in
  match r with
  | inr _ => mkOutcome out err 0 (calls w)
  | inl (SystemExit code) => mkOutcome out err code (calls w)
  | inl e => mkOutcome out (err ++ [Traceback e]) 1 (calls w)
  end.

End Program.

(** ** Reading the call log *)

(** The number of destinations the client accepted: the [add] calls that
    returned a true value. *)
Fixpoint registered (log : list lib_event) : nat :=
  match log with
  | [] => 0
  | CallAdd _ (inr v) :: rest =>
      if truthy v then S (registered rest) else registered rest
  | _ :: rest => registered rest
  end.

Definition is_add (ev : lib_event) : bool :=
  match ev with CallAdd _ _ => true | _ => false end.

(** The [notify] calls of a run, with their arguments and results. *)
Fixpoint dispatches (log : list lib_event)
  : list (value * value * value * lib_result) :=
  match log with
  | [] => []
  | CallNotify t b n r :: rest => (t, b, n, r) :: dispatches rest
  | _ :: rest => dispatches rest
  end.

(** ** The lines the script can print *)

Definition error_line (message : string) : string :=
  json_dumps (error_object message) ++ newline.

Definition result_line (ok : bool) (added : nat) : string :=
  json_dumps (result_object ok added) ++ newline.

(** ** The two JSON objects, character by character *)

(** The text the script is to print, written out independently of
    [json_dumps] and of the dict literals of lines 8 and 59: ["034"] is
    the double quote and ["010"] the line feed. *)

(** [{"success": false, "error": "<message>"}] and a line feed, for a
    message that needs no escaping. *)
Definition error_json (message : string) : string :=
  ("{" ++ String "034" "success" ++ String "034" ": false, "
       ++ String "034" "error" ++ String "034" ": "
       ++ String "034" message ++ String "034" "}"
       ++ String "010" "")%string.

(** [{"success": <ok>, "destinations": <n>}] and a line feed, with [ok]
    as [true] or [false] and [n] in decimal. *)
Definition result_json (ok : bool) (n : nat) : string :=
  ("{" ++ String "034" "success" ++ String "034" ": "
       ++ (if ok then "true" else "false") ++ ", "
       ++ String "034" "destinations" ++ String "034" ": "
       ++ NilEmpty.string_of_uint (Nat.to_uint n) ++ "}"
       ++ String "010" "")%string.

(** The four severities, by name. *)
Definition known_severity (l : pystr) : Prop :=
  l = py "info" \/ l = py "success" \/ l = py "warning" \/ l = py "failure".

(** The client turned the URL down: it raised, or answered a false
    value. *)
Definition rejected (r : lib_result) : bool :=
  match r with
  | inl _ => true
  | inr v => negb (truthy v)
  end.

(** ** A concrete host, for running the model *)

Definition ascii_lower (s : pystr) : pystr :=
  map (fun c => if ((65 <=? c) && (c <=? 90))%N then (c + 32)%N else c) s.

Fixpoint has_prefix (p s : pystr) : bool :=
  match p, s with
  | [], _ => true
  | x :: p', y :: s' => N.eqb x y && has_prefix p' s'
  | _, [] => false
  end.

Fixpoint contains (p s : pystr) : bool :=
  has_prefix p s || match s with [] => false | _ :: s' => contains p s' end.

(** Accepts what looks like [scheme://...], the way Apprise answers
    [False] for a URL it cannot parse. *)
Definition by_scheme (url : pystr) : lib_result :=
  inr (VBool (contains (py "://") url)).

(** A client that keeps the URLs it accepted; [add] answers by
    [add_rule], [notify] always with [notify_outcome], and [lower] is the
    lowercase of the ASCII range. *)
Definition scripted_host (add_rule : pystr -> lib_result)
    (notify_outcome : lib_result) : Host :=
  {| str_lower := ascii_lower;
     Apobj := list pystr;
     Apprise := [];
     apobj_add := fun ap url =>
       (add_rule url,
        match add_rule url with
        | inr v => if truthy v then ap ++ [url] else ap
        | inl _ => ap
        end);
     apobj_notify := fun ap _ _ _ => (notify_outcome, ap) |}.

Definition delivering_host : Host := scripted_host by_scheme (inr (VBool true)).

(** ** Sample requests *)

Definition mail_url : pystr := py "mailto://user@example.org".

(** [title] is a number other than zero. *)
Definition numeric_title_request : list (pystr * value) :=
  [(py "urls", VList [VStr mail_url]); (py "title", VInt 7)].

(** [title] is the number zero. *)
Definition zero_title_request : list (pystr * value) :=
  [(py "urls", VList [VStr mail_url]); (py "title", VInt 0)].

(** Neither [urls] nor [title] has the right type. *)
Definition doubly_invalid_request : list (pystr * value) :=
  [(py "urls", VStr mail_url); (py "title", VInt 7)].

(** One good URL among entries the loop skips or the client refuses. *)
Definition sample_request : stdin_content :=
  Decodes (VDict [(py "urls", VList [VStr (py "  mailto://user@example.org ");
                                     VInt 3; VStr (py "   ");
                                     VStr (py "nope")]);
                  (py "title", VStr (py "Build"));
                  (py "body", VStr (py "done"));
                  (py "notifyType", VStr (py "URGENT"))]).

(** A request whose only entries are skipped or refused. *)
Definition no_destination_request : list (pystr * value) :=
  [(py "urls", VList [VInt 3; VStr (py "   "); VStr (py "nope")]);
   (py "title", VStr (py "Build"))].

(** A client that accepts [scheme://...] URLs and whose [notify]
    raises. *)
Definition failing_host : Host :=
  scripted_host by_scheme (inl (py "timed out")).

(** The sample request with its keys in another order and a key the
    script does not read. *)
Definition padded_request : list (pystr * value) :=
  [(py "priority", VInt 9);
   (py "notifyType", VStr (py "URGENT"));
   (py "body", VStr (py "done"));
   (py "urls", VList [VStr (py "  mailto://user@example.org ");
                      VInt 3; VStr (py "   "); VStr (py "nope")]);
   (py "title", VStr (py "Build"))].

(** The sample request without its [title], and the same with the title
    given as [null]. *)
Definition untitled_request : list (pystr * value) :=
  [(py "urls", VList [VStr mail_url]); (py "body", VStr (py "done"))].

Definition null_title_request : list (pystr * value) :=
  [(py "title", VNone); (py "urls", VList [VStr mail_url]);
   (py "body", VStr (py "done"))].

(** Entries the loop skips, every one of them. *)
Definition blank_request : list (pystr * value) :=
  [(py "urls", VList [VInt 3; VStr (py "   "); VNone; VStr [9%N; 10%N]]);
   (py "body", VStr (py "done"))].

(** A recognised severity, in capitals. *)
Definition warning_request : stdin_content :=
  Decodes (VDict [(py "urls", VList [VStr mail_url]);
                  (py "title", VStr (py " Disk "));
                  (py "body", VStr (py "90% full"));
                  (py "notifyType", VStr (py "WARNING"))]).

(** ** The script's locals, as functions of the decoded object *)

(** [payload.get(key)] on a [dict]. *)
Definition field (d : list (pystr * value)) (key : string) : value :=
  match dict_get d (py key) with Some v => v | None => VNone end.

Definition urls_of d : value := py_or (field d "urls") (VList []).
Definition title_of d : value := py_or (field d "title") (VStr []).
Definition body_of d : value := py_or (field d "body") (VStr []).
Definition raw_notify_type d : value :=
  py_or (field d "notifyType") (VStr (py "info")).

(** Lines 25-28 on a [str]: lowercase, then fall back to [info]. *)
Definition normalize {host : Host} (s : pystr) : value :=
  if negb (in_notify_types (VStr (str_lower s))) then VStr (py "info")
  else VStr (str_lower s).

(** The entries the loop hands to [add]: the strings of [urls], trimmed,
    that are not empty. *)
Fixpoint candidates (urls : list value) : list pystr :=
  match urls with
  | [] => []
  | VStr s :: rest =>
      if truthy (VStr (strip s)) then strip s :: candidates rest
      else candidates rest
  | _ :: rest => candidates rest
  end.

(** An entry the loop skips: not a string, or white space only. *)
Definition skipped (raw : value) : bool :=
  match raw with
  | VStr s => forallb is_space s
  | _ => true
  end.

(** An [add] call made for a string entry of [urls], trimmed, and
    carrying what the client answered to it in some state. *)
Definition answers_for {host : Host} (urls : list value) (ev : lib_event)
    : Prop :=
  exists ap s,
    In (VStr s) urls
    /\ ev = CallAdd (strip s) (fst (apobj_add ap (strip s))).

(** [adds urls evs]: the log [evs] is one [add] call per URL of [urls],
    in order. *)
Inductive adds : list pystr -> list lib_event -> Prop :=
| adds_nil : adds [] []
| adds_cons url r urls evs :
    adds urls evs -> adds (url :: urls) (CallAdd url r :: evs).

(** ** Conditions on a field of the request *)

(** The key is there and its value satisfies [p]. *)
Definition present_and (p : value -> bool) (d : list (pystr * value))
    (key : string) : bool :=
  match dict_get d (py key) with Some v => p v | None => false end.

(** The key is missing, or its value satisfies [p]. *)
Definition absent_or (p : value -> bool) (d : list (pystr * value))
    (key : string) : bool :=
  match dict_get d (py key) with Some v => p v | None => true end.

Definition not_list (v : value) : bool := negb (isinstance_list v).
Definition not_str (v : value) : bool := negb (isinstance_str v).
Definition truthy_not_list (v : value) : bool := truthy v && not_list v.
Definition truthy_not_str (v : value) : bool := truthy v && not_str v.
Definition str_or_falsy (v : value) : bool :=
  isinstance_str v || negb (truthy v).

(** The request passed every type check of lines 19-31. *)
Definition validated (d : list (pystr * value)) : bool :=
  isinstance_list (urls_of d) && isinstance_str (raw_notify_type d)
  && isinstance_str (title_of d) && isinstance_str (body_of d).

(** A failure reported before the client is touched. *)
Definition invalid (message : string) : outcome :=
  mkOutcome (error_line message) [] 1 [].

(** An exception nobody caught, raised before anything was written. *)
Definition crashed (e : exn) : outcome :=
  mkOutcome "" [Traceback e] 1 [].

(** [main] ended by [SystemExit(code)] with both streams flushed. *)
Definition exited {host : Host} (code : Z) (out : string) (err : list err_item)
    (ap : Apobj) (log : list lib_event) : (exn + unit) * world :=
  (inl (SystemExit code), mkWorld "" out [] err ap log).

Definition notify_failed_text (msg : pystr) : pystr :=
  py "Apprise notify failed: " ++ msg ++ py newline.

(** The ways a run can go, each with the condition under which it does
    and what the process leaves behind. *)
Inductive Run {host : Host} : stdin_content -> outcome -> Prop :=
| Run_malformed why :
    Run (Malformed why) (invalid "Invalid JSON payload")
| Run_not_object v :
    (forall d, v <> VDict d) ->
    Run (Decodes v) (crashed (AttributeError (type_name v) "get"))
| Run_bad_urls d :
    isinstance_list (urls_of d) = false ->
    Run (Decodes (VDict d)) (invalid "Invalid urls: expected list")
| Run_bad_notify_type d :
    isinstance_list (urls_of d) = true ->
    isinstance_str (raw_notify_type d) = false ->
    Run (Decodes (VDict d))
        (crashed (AttributeError (type_name (raw_notify_type d)) "lower"))
| Run_bad_text d :
    isinstance_list (urls_of d) = true ->
    isinstance_str (raw_notify_type d) = true ->
    isinstance_str (title_of d) && isinstance_str (body_of d) = false ->
    Run (Decodes (VDict d)) (invalid "Invalid title/body")
| Run_no_destination d us evs :
    validated d = true ->
    urls_of d = VList us ->
    adds (candidates us) evs ->
    registered evs = 0 ->
    Run (Decodes (VDict d))
        (mkOutcome (error_line "No valid notification destinations")
                   [] 1 evs)
| Run_notify_raised d us s evs msg :
    validated d = true ->
    urls_of d = VList us ->
    raw_notify_type d = VStr s ->
    adds (candidates us) evs ->
    registered evs <> 0 ->
    Run (Decodes (VDict d))
        (mkOutcome (error_line "Apprise notify failed")
                   [Text (notify_failed_text msg)] 1
                   (evs ++ [CallNotify (title_of d) (body_of d)
                                       (normalize s) (inl msg)]))
| Run_reported d us s evs v :
    validated d = true ->
    urls_of d = VList us ->
    raw_notify_type d = VStr s ->
    adds (candidates us) evs ->
    registered evs <> 0 ->
    Run (Decodes (VDict d))
        (mkOutcome (result_line (truthy v) (registered evs))
                   [] (if truthy v then 0 else 1)
                   (evs ++ [CallNotify (title_of d) (body_of d)
                                       (normalize s) (inr v)])).

(** The URLs handed to [add], in call order. *)
Fixpoint added_urls (log : list lib_event) : list pystr :=
  match log with
  | [] => []
  | CallAdd url _ :: rest => url :: added_urls rest
  | _ :: rest => added_urls rest
  end.

(** No traceback of a library exception in what the error stream got. *)
Definition no_library_traceback (item : err_item) : bool :=
  match item with
  | Traceback (LibraryError _) => false
  | _ => true
  end.

(** Printable ASCII: from the space to the tilde. *)
Definition printable_char (c : ascii) : bool :=
  Nat.leb 32 (nat_of_ascii c) && Nat.leb (nat_of_ascii c) 126.

Fixpoint printable (s : string) : bool :=
  match s with
  | EmptyString => true
  | String c rest => printable_char c && printable rest
  end.

(** Open [main] on a decoded object and name the script's locals. *)
Ltac open_main d :=
  cbv beta iota zeta delta
    [main bind try_except json_load ret py_get when];
  fold (field d "urls") (field d "title") (field d "body")
       (field d "notifyType");
  fold (urls_of d) (raw_notify_type d) (title_of d) (body_of d).

(** * Properties *)

(** ** The printed lines can be told apart *)

Lemma append_empty_r (s : string) : (s ++ "")%string = s.
Proof. induction s as [|c s IH]; simpl; [reflexivity|now rewrite IH]. Qed.

Lemma append_assoc (a b c : string) :
  ((a ++ b) ++ c)%string = (a ++ (b ++ c))%string.
Proof. induction a as [|x a IH]; simpl; [reflexivity|now rewrite IH]. Qed.





(** No error line is a result line. *)
Lemma error_line_not_result (message : string) (ok : bool) (n : nat) :
  error_line message <> result_line ok n.
Proof.
  unfold error_line, result_line, json_dumps, error_object, result_object.
  destruct ok; simpl; discriminate.
Qed.


(** What lines 59 prints is the result object, character by character. *)
Lemma result_line_is_result_json (ok : bool) (n : nat) :
  result_line ok n = result_json ok n.
Proof.
  unfold result_line, result_json, json_dumps, result_object, dumps_items.
  destruct ok; simpl; now rewrite append_assoc.
Qed.

(** What [_fail] prints is the error object, character by character, as
    long as the message has nothing to escape. *)
Lemma error_line_is_error_json (message : string) :
  escape message = message -> error_line message = error_json message.
Proof.
  intros E. unfold error_line, error_json, json_dumps, error_object,
    dumps_items, dumps_val, dumps_str.
  rewrite E. simpl. now rewrite !append_assoc.
Qed.

(** The two texts, by character code. *)
Example error_json_codes :
  map nat_of_ascii (list_ascii_of_string (error_json "x")) =
    [123; 34; 115; 117; 99; 99; 101; 115; 115; 34; 58; 32; 102; 97; 108; 115; 101; 44; 32; 34; 101; 114; 114; 111; 114; 34; 58; 32; 34; 120; 34; 125; 10].
Proof. reflexivity. Qed.

Example result_json_codes :
  map nat_of_ascii (list_ascii_of_string (result_json true 12)) =
    [123; 34; 115; 117; 99; 99; 101; 115; 115; 34; 58; 32; 116; 114; 117; 101; 44; 32; 34; 100; 101; 115; 116; 105; 110; 97; 116; 105; 111; 110; 115; 34; 58; 32; 49; 50; 125; 10].
Proof. reflexivity. Qed.

Lemma pystr_eqb_eq (a b : pystr) : pystr_eqb a b = true <-> a = b.
Proof.
  revert b. induction a as [|x a IH]; intros [|y b]; simpl;
    split; intros H; try discriminate; try reflexivity.
  - apply andb_prop in H as [H1 H2]. apply N.eqb_eq in H1.
    apply IH in H2. congruence.
  - injection H as -> ->. rewrite N.eqb_refl. now apply IH.
Qed.

Section Facts.
Context {host : Host}.

(** ** The call log *)

Lemma registered_app (a b : list lib_event) :
  registered (a ++ b) = registered a + registered b.
Proof.
  induction a as [|ev a IH]; simpl; [reflexivity|].
  destruct ev as [url [msg|v]|t b' n r]; auto.
  destruct (truthy v); simpl; auto.
Qed.


Lemma dispatches_adds (log : list lib_event) :
  forallb is_add log = true -> dispatches log = [].
Proof.
  induction log as [|ev log IH]; simpl; [reflexivity|].
  destruct ev; simpl; auto; discriminate.
Qed.

Lemma dispatches_app (a b : list lib_event) :
  dispatches (a ++ b) = dispatches a ++ dispatches b.
Proof.
  induction a as [|ev a IH]; simpl; [reflexivity|].
  destruct ev; simpl; congruence.
Qed.

Lemma adds_is_add (urls : list pystr) (evs : list lib_event) :
  adds urls evs -> forallb is_add evs = true.
Proof. induction 1; simpl; auto. Qed.



(** ** The registration loop *)

(** The loop never raises and touches neither stream; it calls [add]
    once for each candidate, in order, and its counter grows by the
    number of them that the client accepted. *)
Lemma register_spec (urls : list value) :
  forall (added : nat) (w : world),
  exists (evs : list lib_event) (ap : Apobj),
    register urls added w =
      (inr (added + registered evs),
       mkWorld (stdout_pending w) (stdout_flushed w)
               (stderr_pending w) (stderr_flushed w) ap (calls w ++ evs))
    /\ adds (candidates urls) evs.
Proof.
  induction urls as [|raw rest IH]; intros added w.
  - exists [], (apobj w). simpl. rewrite Nat.add_0_r, app_nil_r.
    destruct w; split; [reflexivity|constructor].
  - assert (Hskip : exists evs ap,
        register rest added w =
          (inr (added + registered evs),
           mkWorld (stdout_pending w) (stdout_flushed w)
                   (stderr_pending w) (stderr_flushed w) ap (calls w ++ evs))
        /\ adds (candidates rest) evs) by apply IH.
    destruct raw as [ | | | |s| | ]; try exact Hskip.
    simpl. destruct (strip s) as [|c url'] eqn:Eurl; [exact Hskip|].
    simpl. unfold bind at 1. unfold try_except, bind, call_add.
    destruct (apobj_add (apobj w) (c :: url')) as [r ap1] eqn:Eadd.
    set (w1 := record_call (CallAdd (c :: url') r) ap1 w).
    destruct r as [msg|v]; simpl.
    + destruct (IH added w1) as (evs & ap & E & A).
      exists (CallAdd (c :: url') (inl msg) :: evs), ap.
      rewrite E. subst w1. simpl. rewrite <- app_assoc. simpl.
      split; [reflexivity|constructor; exact A].
    + destruct (IH (if truthy v then S added else added) w1)
        as (evs & ap & E & A).
      exists (CallAdd (c :: url') (inr v) :: evs), ap.
      rewrite E. subst w1. simpl. rewrite <- app_assoc. simpl.
      split; [|constructor; exact A].
      destruct (truthy v); do 2 f_equal; lia.
Qed.

(** ** [main], branch by branch *)

Lemma main_malformed (why : pystr) :
  main (Malformed why) start =
    exited 1 (error_line "Invalid JSON payload") [] Apprise [].
Proof. reflexivity. Qed.

Lemma main_not_dict (v : value) :
  (forall d, v <> VDict d) ->
  main (Decodes v) start = (inl (AttributeError (type_name v) "get"), start).
Proof.
  intros Hv. destruct v; try reflexivity. exfalso; eapply Hv; reflexivity.
Qed.

Lemma main_urls_not_list (d : list (pystr * value)) :
  isinstance_list (urls_of d) = false ->
  main (Decodes (VDict d)) start =
    exited 1 (error_line "Invalid urls: expected list") [] Apprise [].
Proof.
  intros Hu. open_main d. rewrite Hu. reflexivity.
Qed.

Lemma main_notify_type_not_str (d : list (pystr * value)) :
  isinstance_list (urls_of d) = true ->
  isinstance_str (raw_notify_type d) = false ->
  main (Decodes (VDict d)) start =
    (inl (AttributeError (type_name (raw_notify_type d)) "lower"), start).
Proof.
  intros Hu Hn. open_main d. rewrite Hu. simpl.
  destruct (raw_notify_type d); try discriminate; reflexivity.
Qed.

Lemma main_text_not_str (d : list (pystr * value)) (s : pystr) :
  isinstance_list (urls_of d) = true ->
  raw_notify_type d = VStr s ->
  isinstance_str (title_of d) && isinstance_str (body_of d) = false ->
  main (Decodes (VDict d)) start =
    exited 1 (error_line "Invalid title/body") [] Apprise [].
Proof.
  intros Hu Hn Ht. open_main d. rewrite Hu, Hn. simpl.
  rewrite <- negb_andb, Ht. reflexivity.
Qed.

(** Once the four locals have the right types, the run is decided by
    what the client answers: the [add] calls of the loop, then either the
    empty-set failure or the single [notify] call and its report. *)
Lemma main_validated (d : list (pystr * value)) (us : list value)
    (s t b : pystr) :
  urls_of d = VList us ->
  raw_notify_type d = VStr s ->
  title_of d = VStr t ->
  body_of d = VStr b ->
  exists (evs : list lib_event) (ap : Apobj),
    adds (candidates us) evs
    /\ main (Decodes (VDict d)) start =
         if Nat.eqb (registered evs) 0
         then exited 1 (error_line "No valid notification destinations")
                     [] ap evs
         else
           match apobj_notify ap (VStr t) (VStr b) (normalize s) with
           | (inl msg, ap') =>
               exited 1 (error_line "Apprise notify failed")
                 [Text (notify_failed_text msg)]
                 ap'
                 (evs ++ [CallNotify (VStr t) (VStr b) (normalize s)
                                     (inl msg)])
           | (inr v, ap') =>
               exited (if truthy v then 0 else 1)
                 (result_line (truthy v) (registered evs)) [] ap'
                 (evs ++ [CallNotify (VStr t) (VStr b) (normalize s)
                                     (inr v)])
           end.
Proof.
  intros Hu Hn Ht Hb.
  destruct (register_spec us 0 start) as (evs & ap & E & A).
  exists evs, ap. split; [exact A|].
  simpl in E.
  open_main d. rewrite Hu, Hn, Ht, Hb.
  cbv beta iota zeta delta [py_lower ret].
  fold (normalize s). remember (normalize s) as nt eqn:Ent.
  cbv beta iota zeta delta [isinstance_list isinstance_str negb orb].
  change (new_Apprise start) with (@inr exn unit tt, start).
  cbv beta iota. rewrite E. cbv beta iota.
  destruct (Nat.eqb (registered evs) 0) eqn:E0; [reflexivity|].
  cbv beta iota. unfold call_notify. cbn [apobj].
  destruct (apobj_notify ap (VStr t) (VStr b) nt) as [[msg|v] ap'];
    [reflexivity|].
  cbv beta iota delta [deliver]. destruct (truthy v); reflexivity.
Qed.

(** ** Every run is one of the eight *)

Lemma python_run_exited (stdin : stdin_content) code out err ap log :
  main stdin start = exited code out err ap log ->
  python_run stdin = mkOutcome out err code log.
Proof.
  intros E. unfold python_run. rewrite E. unfold exited. cbn.
  now rewrite append_empty_r, app_nil_r.
Qed.

Lemma is_dict_dec (v : value) :
  (exists d, v = VDict d) \/ (forall d, v <> VDict d).
Proof. destruct v; try (right; discriminate). left; eexists; reflexivity. Qed.

Lemma python_run_Run (stdin : stdin_content) : Run stdin (python_run stdin).
Proof.
  destruct stdin as [why|v].
  - unfold python_run. rewrite main_malformed. constructor.
  - destruct (is_dict_dec v) as [[d ->]|Hv].
    2:{ unfold python_run. rewrite (main_not_dict v Hv).
        apply Run_not_object, Hv. }
    destruct (isinstance_list (urls_of d)) eqn:Hu.
    2:{ unfold python_run. rewrite (main_urls_not_list d Hu).
        apply Run_bad_urls, Hu. }
    destruct (isinstance_str (raw_notify_type d)) eqn:Hn.
    2:{ unfold python_run. rewrite (main_notify_type_not_str d Hu Hn).
        apply Run_bad_notify_type; assumption. }
    destruct (raw_notify_type d) as [ | | | |s| | ] eqn:En; try discriminate.
    destruct (isinstance_str (title_of d) && isinstance_str (body_of d))
      eqn:Ht.
    2:{ unfold python_run. rewrite (main_text_not_str d s Hu En Ht).
        apply Run_bad_text; try assumption. rewrite En; reflexivity. }
    apply andb_prop in Ht as [Ht Hb].
    assert (Hval : validated d = true).
    { unfold validated. rewrite Hu, En, Ht, Hb. reflexivity. }
    destruct (urls_of d) as [ | | | | |us| ] eqn:Eu; try discriminate.
    destruct (title_of d) as [ | | | |t| | ] eqn:Et; try discriminate.
    destruct (body_of d) as [ | | | |b| | ] eqn:Eb; try discriminate.
    destruct (main_validated d us s t b Eu En Et Eb) as (evs & ap & A & E).
    rewrite <- Eu, <- Et, <- Eb in *.
    destruct (Nat.eqb (registered evs) 0) eqn:E0.
    + apply Nat.eqb_eq in E0. rewrite (python_run_exited _ _ _ _ _ _ E).
      eapply Run_no_destination; eauto.
    + apply Nat.eqb_neq in E0.
      destruct (apobj_notify ap (title_of d) (body_of d) (normalize s))
        as [[msg|v] ap']; rewrite (python_run_exited _ _ _ _ _ _ E).
      * eapply Run_notify_raised; eauto.
      * eapply Run_reported; eauto.
Qed.

(** [main] never returns: it ends by [SystemExit] with both streams
    flushed, or by an exception raised before anything was written. *)
Lemma main_ends (stdin : stdin_content) :
  (exists code out err ap log,
     main stdin start = exited code out err ap log)
  \/ (exists e, is_Exception e = true /\ main stdin start = (inl e, start)).
Proof.
  destruct stdin as [why|v].
  { left. do 5 eexists. apply main_malformed. }
  destruct (is_dict_dec v) as [[d ->]|Hv].
  2:{ right. eexists. split; [|apply (main_not_dict v Hv)]. reflexivity. }
  destruct (isinstance_list (urls_of d)) eqn:Hu.
  2:{ left. do 5 eexists. apply (main_urls_not_list d Hu). }
  destruct (isinstance_str (raw_notify_type d)) eqn:Hn.
  2:{ right. eexists. split; [|apply (main_notify_type_not_str d Hu Hn)].
      reflexivity. }
  destruct (raw_notify_type d) as [ | | | |s| | ] eqn:En; try discriminate.
  destruct (isinstance_str (title_of d) && isinstance_str (body_of d)) eqn:Ht.
  2:{ left. do 5 eexists. apply (main_text_not_str d s Hu En Ht). }
  apply andb_prop in Ht as [Ht Hb].
  destruct (urls_of d) as [ | | | | |us| ] eqn:Eu; try discriminate.
  destruct (title_of d) as [ | | | |t| | ] eqn:Et; try discriminate.
  destruct (body_of d) as [ | | | |b| | ] eqn:Eb; try discriminate.
  destruct (main_validated d us s t b Eu En Et Eb) as (evs & ap & A & E).
  left. rewrite E.
  destruct (Nat.eqb (registered evs) 0); [do 5 eexists; reflexivity|].
  destruct (apobj_notify ap (VStr t) (VStr b) (normalize s)) as [[msg|v] ap'];
    do 5 eexists; reflexivity.
Qed.

(** ** What the client answered *)

(** The loop again, now with where each logged answer comes from: every
    call is made for a string entry of [urls], with that entry trimmed,
    and logs what the client answered to it. *)
Lemma register_answers (urls : list value) :
  forall (added : nat) (w : world),
  exists (evs : list lib_event) (ap : Apobj),
    register urls added w =
      (inr (added + registered evs),
       mkWorld (stdout_pending w) (stdout_flushed w)
               (stderr_pending w) (stderr_flushed w) ap (calls w ++ evs))
    /\ Forall (answers_for urls) evs.
Proof.
  induction urls as [|raw rest IH]; intros added w.
  - exists [], (apobj w). simpl. rewrite Nat.add_0_r, app_nil_r.
    destruct w; split; [reflexivity|constructor].
  - assert (Hweak : forall evs,
        Forall (answers_for rest) evs -> Forall (answers_for (raw :: rest)) evs).
    { intros evs. apply Forall_impl. intros ev (ap & s & Hin & ->).
      exists ap, s. split; [right; exact Hin|reflexivity]. }
    assert (Hskip : exists evs ap,
        register rest added w =
          (inr (added + registered evs),
           mkWorld (stdout_pending w) (stdout_flushed w)
                   (stderr_pending w) (stderr_flushed w) ap (calls w ++ evs))
        /\ Forall (answers_for (raw :: rest)) evs).
    { destruct (IH added w) as (evs & ap & E & F). exists evs, ap. auto. }
    destruct raw as [ | | | |s| | ]; try exact Hskip.
    simpl. destruct (strip s) as [|c url'] eqn:Eurl; [exact Hskip|].
    simpl. unfold bind at 1. unfold try_except, bind, call_add.
    assert (Hhere : forall r ap1,
        apobj_add (apobj w) (c :: url') = (r, ap1) ->
        answers_for (VStr s :: rest) (CallAdd (c :: url') r)).
    { intros r ap1 Eadd. exists (apobj w), s.
      split; [left; reflexivity|]. now rewrite Eurl, Eadd. }
    destruct (apobj_add (apobj w) (c :: url')) as [r ap1] eqn:Eadd.
    specialize (Hhere r ap1 eq_refl).
    set (w1 := record_call (CallAdd (c :: url') r) ap1 w).
    destruct r as [msg|v]; simpl.
    + destruct (IH added w1) as (evs & ap & E & F).
      exists (CallAdd (c :: url') (inl msg) :: evs), ap.
      rewrite E. subst w1. simpl. rewrite <- app_assoc. simpl.
      split; [reflexivity|constructor; auto].
    + destruct (IH (if truthy v then S added else added) w1)
        as (evs & ap & E & F).
      exists (CallAdd (c :: url') (inr v) :: evs), ap.
      rewrite E. subst w1. simpl. rewrite <- app_assoc. simpl.
      split; [|constructor; auto].
      destruct (truthy v); do 2 f_equal; lia.
Qed.

(** [main] on a validated request, given what the loop did. *)
Lemma main_validated_with (d : list (pystr * value)) (us : list value)
    (s t b : pystr) (evs : list lib_event) (ap : Apobj) :
  urls_of d = VList us ->
  raw_notify_type d = VStr s ->
  title_of d = VStr t ->
  body_of d = VStr b ->
  register us 0 start = (inr (registered evs), mkWorld "" "" [] [] ap evs) ->
  registered evs = 0 ->
  main (Decodes (VDict d)) start =
    exited 1 (error_line "No valid notification destinations") [] ap evs.
Proof.
  intros Hu Hn Ht Hb E H0.
  open_main d. rewrite Hu, Hn, Ht, Hb.
  cbv beta iota zeta delta [py_lower ret].
  cbv beta iota zeta delta [isinstance_list isinstance_str negb orb].
  change (new_Apprise start) with (@inr exn unit tt, start).
  cbv beta iota. rewrite E. cbv beta iota. rewrite H0. reflexivity.
Qed.

Lemma rejected_not_registered (urls : list value) (evs : list lib_event) :
  (forall ap s, In (VStr s) urls ->
                rejected (fst (apobj_add ap (strip s))) = true) ->
  Forall (answers_for urls) evs ->
  registered evs = 0.
Proof.
  intros Hrej. induction 1 as [|ev evs (ap & s & Hin & ->) _ IH];
    simpl; [reflexivity|].
  specialize (Hrej ap s Hin).
  destruct (fst (apobj_add ap (strip s))) as [msg|v]; [exact IH|].
  simpl in Hrej. apply negb_true_iff in Hrej. now rewrite Hrej.
Qed.

(** When the client turns down every trimmed string entry, in whatever
    state it is asked, a validated run registers nothing. *)
Lemma rejecting_client_registers_nothing (d : list (pystr * value))
    (us : list value) :
  validated d = true ->
  urls_of d = VList us ->
  (forall ap s, In (VStr s) us ->
                rejected (fst (apobj_add ap (strip s))) = true) ->
  registered (library_calls (python_run (Decodes (VDict d)))) = 0.
Proof.
  intros Hv Hu Hrej. unfold validated in Hv.
  apply andb_prop in Hv as [Hv Hb]. apply andb_prop in Hv as [Hv Ht].
  apply andb_prop in Hv as [_ Hn].
  destruct (raw_notify_type d) as [ | | | |s| | ] eqn:En; try discriminate.
  destruct (title_of d) as [ | | | |t| | ] eqn:Et; try discriminate.
  destruct (body_of d) as [ | | | |b| | ] eqn:Eb; try discriminate.
  destruct (register_answers us 0 start) as (evs & ap & E & F).
  simpl in E.
  pose proof (rejected_not_registered us evs Hrej F) as H0.
  rewrite (python_run_exited _ _ _ _ _ _
             (main_validated_with d us s t b evs ap Hu En Et Eb E H0)).
  exact H0.
Qed.

(** X16: whatever the input, nothing is left in a buffer of either
    stream when [main] ends. *)
Lemma main_flushes (stdin : stdin_content) :
  stdout_pending (snd (main stdin start)) = ""
  /\ stderr_pending (snd (main stdin start)) = [].
Proof.
  destruct (main_ends stdin) as [(c & out & err & ap & log & E)|(e & _ & E)];
    rewrite E; split; reflexivity.
Qed.

End Facts.

(** * The adapter's contract *)

Section Contract.
Context {host : Host}.

(** ** What the defaults do to a field *)

Lemma urls_of_list_or_absent (d : list (pystr * value)) :
  absent_or isinstance_list d "urls" = true ->
  isinstance_list (urls_of d) = true.
Proof.
  unfold absent_or, urls_of, field, py_or.
  destruct (dict_get d (py "urls")) as [v|]; [|reflexivity].
  intros Hv. destruct (truthy v); [exact Hv|reflexivity].
Qed.

Lemma urls_of_truthy_not_list (d : list (pystr * value)) :
  present_and truthy_not_list d "urls" = true ->
  isinstance_list (urls_of d) = false.
Proof.
  unfold present_and, truthy_not_list, not_list, urls_of, field, py_or.
  destruct (dict_get d (py "urls")) as [v|]; [|discriminate].
  intros Hv. apply andb_prop in Hv as [Ht Hl]. rewrite Ht.
  now apply negb_true_iff.
Qed.

Lemma notify_type_str_or_falsy (d : list (pystr * value)) :
  absent_or str_or_falsy d "notifyType" = true ->
  isinstance_str (raw_notify_type d) = true.
Proof.
  unfold absent_or, str_or_falsy, raw_notify_type, field, py_or.
  destruct (dict_get d (py "notifyType")) as [v|]; [|reflexivity].
  destruct (truthy v); [|reflexivity].
  rewrite orb_false_r. auto.
Qed.

Lemma text_truthy_not_str (d : list (pystr * value)) :
  present_and truthy_not_str d "title"
  || present_and truthy_not_str d "body" = true ->
  isinstance_str (title_of d) && isinstance_str (body_of d) = false.
Proof.
  unfold present_and, truthy_not_str, not_str, title_of, body_of, field, py_or.
  intros H. apply orb_prop in H as [H|H].
  - destruct (dict_get d (py "title")) as [v|]; [|discriminate].
    apply andb_prop in H as [Ht Hs]. rewrite Ht.
    apply negb_true_iff in Hs. now rewrite Hs.
  - destruct (dict_get d (py "body")) as [v|]; [|discriminate].
    apply andb_prop in H as [Ht Hs]. rewrite Ht.
    apply negb_true_iff in Hs. rewrite Hs. apply andb_false_r.
Qed.

(** ** Validation failures *)

(** C1, amended: when the request object has a key [urls] whose value is
    truthy and not a list, standard output receives exactly the text
    [{"success": false, "error": "Invalid urls: expected list"}] and a
    line feed; the run writes nothing else, calls nothing on the client
    and exits with status 1.  (A falsy value is replaced by the empty
    list before the check.) *)
Theorem truthy_non_list_urls_rejected (d : list (pystr * value)) (v : value) :
  dict_get d (py "urls") = Some v ->
  truthy v = true ->
  isinstance_list v = false ->
  python_run (Decodes (VDict d)) =
    mkOutcome (error_json "Invalid urls: expected list") [] 1 [].
Proof.
  intros Hget Ht Hl.
  change (error_json "Invalid urls: expected list")
    with (error_line "Invalid urls: expected list").
  apply python_run_exited with (ap := Apprise).
  apply main_urls_not_list, urls_of_truthy_not_list.
  unfold present_and, truthy_not_list, not_list.
  now rewrite Hget, Ht, Hl.
Qed.

(** C2, amended: when [urls] is a list or absent, [title] or [body] is
    present with a truthy value that is not a string, and [notifyType] is
    absent, falsy or a string, standard output receives exactly the text
    [{"success": false, "error": "Invalid title/body"}] and a line feed;
    the run writes nothing else, calls nothing on the client and exits
    with status 1. *)
Theorem truthy_non_str_text_rejected (d : list (pystr * value)) :
  absent_or isinstance_list d "urls" = true ->
  present_and truthy_not_str d "title"
  || present_and truthy_not_str d "body" = true ->
  absent_or str_or_falsy d "notifyType" = true ->
  python_run (Decodes (VDict d)) =
    mkOutcome (error_json "Invalid title/body") [] 1 [].
Proof.
  intros Hu Ht Hn.
  change (error_json "Invalid title/body")
    with (error_line "Invalid title/body").
  apply python_run_exited with (ap := Apprise).
  apply notify_type_str_or_falsy in Hn.
  destruct (raw_notify_type d) as [ | | | |s| | ] eqn:En; try discriminate.
  apply (main_text_not_str d s).
  - now apply urls_of_list_or_absent.
  - exact En.
  - now apply text_truthy_not_str.
Qed.

(** C6: when standard input does not decode as JSON, standard output
    receives exactly the text
    [{"success": false, "error": "Invalid JSON payload"}] and a line
    feed; the run writes nothing else, calls nothing on the client and
    exits with status 1. *)
Theorem malformed_json_rejected (why : pystr) :
  python_run (Malformed why) =
    mkOutcome (error_json "Invalid JSON payload") [] 1 [].
Proof. reflexivity. Qed.

(** C9, amended: when [title] or [body] is present with a truthy value
    that is not a string, no call at all reaches the client; and if in
    addition [urls] is a truthy non-list, the error reported is the one
    about [urls]: standard output is exactly the text
    [{"success": false, "error": "Invalid urls: expected list"}] and a
    line feed, which is not the line about the title and body. *)
Theorem validation_precedence (d : list (pystr * value)) :
  present_and truthy_not_str d "title"
  || present_and truthy_not_str d "body" = true ->
  library_calls (python_run (Decodes (VDict d))) = []
  /\ (present_and truthy_not_list d "urls" = true ->
      python_run (Decodes (VDict d)) =
        mkOutcome (error_json "Invalid urls: expected list") [] 1 []
      /\ stdout (python_run (Decodes (VDict d)))
         <> error_json "Invalid title/body").
Proof.
  intros Ht. apply text_truthy_not_str in Ht. split.
  - pose proof (python_run_Run (Decodes (VDict d))) as R.
    remember (python_run (Decodes (VDict d))) as o eqn:Eo. clear Eo.
    inversion R; subst; try reflexivity.
    all: match goal with Hv : validated _ = true |- _ =>
           unfold validated in Hv;
           rewrite <- andb_assoc, Ht, andb_false_r in Hv; discriminate
         end.
  - intros Hu.
    assert (E : python_run (Decodes (VDict d)) =
                mkOutcome (error_json "Invalid urls: expected list") [] 1 []).
    { change (error_json "Invalid urls: expected list")
        with (error_line "Invalid urls: expected list").
      apply python_run_exited with (ap := Apprise).
      now apply main_urls_not_list, urls_of_truthy_not_list. }
    split; [exact E|]. rewrite E. vm_compute. discriminate.
Qed.

(** ** The severity *)


(** A recognised severity passes through lines 25-28 in lower case. *)
Lemma normalize_known (s : pystr) :
  known_severity (str_lower s) -> normalize s = VStr (str_lower s).
Proof.
  unfold normalize, in_notify_types, notify_types.
  intros [H|[H|[H|H]]]; rewrite H; reflexivity.
Qed.

(** Anything else becomes [info]. *)
Lemma normalize_unknown (s : pystr) :
  ~ known_severity (str_lower s) -> normalize s = VStr (py "info").
Proof.
  unfold normalize, in_notify_types, notify_types, known_severity.
  intros H. cbn [existsb].
  destruct (pystr_eqb (str_lower s) (py "info")) eqn:E1;
    [apply pystr_eqb_eq in E1; tauto|].
  destruct (pystr_eqb (str_lower s) (py "success")) eqn:E2;
    [apply pystr_eqb_eq in E2; tauto|].
  destruct (pystr_eqb (str_lower s) (py "warning")) eqn:E3;
    [apply pystr_eqb_eq in E3; tauto|].
  destruct (pystr_eqb (str_lower s) (py "failure")) eqn:E4;
    [apply pystr_eqb_eq in E4; tauto|].
  reflexivity.
Qed.

(** A [notify] call receives the script's locals. *)
Lemma dispatch_locals (stdin : stdin_content)
    (t b nt : value) (r : lib_result) :
  In (t, b, nt, r) (dispatches (library_calls (python_run stdin))) ->
  exists d s, stdin = Decodes (VDict d)
              /\ raw_notify_type d = VStr s
              /\ t = title_of d /\ b = body_of d
              /\ nt = normalize s.
Proof.
  intros Hin. pose proof (python_run_Run stdin) as R.
  remember (python_run stdin) as o eqn:Eo. clear Eo.
  destruct R; simpl in Hin; try contradiction.
  - erewrite dispatches_adds in Hin by (eapply adds_is_add; eauto).
    contradiction.
  - rewrite dispatches_app in Hin.
    erewrite dispatches_adds in Hin by (eapply adds_is_add; eauto).
    simpl in Hin. destruct Hin as [Hin|[]]. injection Hin as <- <- <- <-.
    eauto 10.
  - rewrite dispatches_app in Hin.
    erewrite dispatches_adds in Hin by (eapply adds_is_add; eauto).
    simpl in Hin. destruct Hin as [Hin|[]]. injection Hin as <- <- <- <-.
    eauto 10.
Qed.

(** X14: a [notify] call is made for a request object only.  It
    receives the title and the body as they are after their defaults,
    untrimmed.  With [s] the string in force as [notifyType], it
    receives [s.lower()] when that is [info], [success], [warning] or
    [failure], and [info] in every other case. *)
Theorem dispatch_receives_normalized (stdin : stdin_content)
    (t b nt : value) (r : lib_result) :
  In (t, b, nt, r) (dispatches (library_calls (python_run stdin))) ->
  exists d s, stdin = Decodes (VDict d)
              /\ raw_notify_type d = VStr s
              /\ t = title_of d /\ b = body_of d
              /\ (known_severity (str_lower s) -> nt = VStr (str_lower s))
              /\ (~ known_severity (str_lower s) -> nt = VStr (py "info")).
Proof.
  intros Hin.
  apply dispatch_locals in Hin as (d & s & -> & Hn & -> & -> & ->).
  exists d, s. repeat split; auto.
  - apply normalize_known.
  - apply normalize_unknown.
Qed.

(** C3, at a failing input: with [notifyType] set to the number 5 in an
    otherwise valid request, no severity is computed at all: [.lower()]
    raises [AttributeError], nobody catches it, nothing is printed on
    standard output, the client is never called, and the process ends
    with a traceback and status 1. *)
Theorem numeric_notify_type_crashes :
  python_run
    (Decodes (VDict [(py "urls", VList [VStr (py "mailto://user@example.org")]);
                     (py "title", VStr (py "Build"));
                     (py "body", VStr (py "done"));
                     (py "notifyType", VInt 5)]))
  = crashed (AttributeError "int" "lower").
Proof. reflexivity. Qed.

(** ** Dispatch *)

Lemma log_after_adds (urls : list pystr) (evs : list lib_event)
    (t b nt : value) (r : lib_result) :
  adds urls evs ->
  dispatches (evs ++ [CallNotify t b nt r]) = [(t, b, nt, r)]
  /\ registered (evs ++ [CallNotify t b nt r]) = registered evs.
Proof.
  intros A. rewrite dispatches_app, registered_app.
  rewrite (dispatches_adds evs (adds_is_add _ _ A)). simpl. split; auto.
Qed.

(** C4: when the [notify] call returns a value [v] instead of raising,
    standard output receives exactly the text
    [{"success": b, "destinations": n}] and a line feed, with [b] the
    JSON boolean of [bool(v)] and [n] the decimal number of accepted
    [add] calls; the run prints nothing on the error stream, and exits
    with status 0 if [bool(v)] is true and 1 otherwise. *)
Theorem completed_dispatch_reported (stdin : stdin_content)
    (t b nt v : value) :
  In (t, b, nt, inr v) (dispatches (library_calls (python_run stdin))) ->
  stdout (python_run stdin) =
    result_json (truthy v) (registered (library_calls (python_run stdin)))
  /\ stderr (python_run stdin) = []
  /\ exit_code (python_run stdin) = (if truthy v then 0 else 1)%Z.
Proof.
  intros Hin. pose proof (python_run_Run stdin) as R.
  remember (python_run stdin) as o eqn:Eo. clear Eo.
  destruct R as [ | | | | |d us evs Hval Hu A Hreg
                 |d us s evs msg Hval Hu Hn A Hreg
                 |d us s evs v0 Hval Hu Hn A Hreg];
    simpl in Hin; try contradiction.
  - erewrite dispatches_adds in Hin by (eapply adds_is_add; eauto).
    contradiction.
  - destruct (log_after_adds _ _ (title_of d) (body_of d) (normalize s)
                (inl msg) A) as [D _].
    rewrite D in Hin. destruct Hin as [Hin|[]]. discriminate.
  - destruct (log_after_adds _ _ (title_of d) (body_of d) (normalize s)
                (inr v0) A) as [D G].
    rewrite D in Hin. destruct Hin as [Hin|[]]. injection Hin as _ _ _ ->.
    simpl. rewrite G, result_line_is_result_json. auto.
Qed.

(** X13: when the [notify] call raises, the exception is caught: one
    line naming it goes to the error stream, the text
    [{"success": false, "error": "Apprise notify failed"}] and a line
    feed to standard output, and the status is 1. *)
Lemma dispatch_exception_reported (stdin : stdin_content)
    (t b nt : value) (msg : pystr) :
  In (t, b, nt, inl msg) (dispatches (library_calls (python_run stdin))) ->
  stdout (python_run stdin) = error_json "Apprise notify failed"
  /\ stderr (python_run stdin) = [Text (notify_failed_text msg)]
  /\ exit_code (python_run stdin) = 1%Z.
Proof.
  intros Hin. pose proof (python_run_Run stdin) as R.
  remember (python_run stdin) as o eqn:Eo. clear Eo.
  destruct R as [ | | | | |d us evs Hval Hu A Hreg
                 |d us s evs msg0 Hval Hu Hn A Hreg
                 |d us s evs v Hval Hu Hn A Hreg];
    simpl in Hin; try contradiction.
  - erewrite dispatches_adds in Hin by (eapply adds_is_add; eauto).
    contradiction.
  - destruct (log_after_adds _ _ (title_of d) (body_of d) (normalize s)
                (inl msg0) A) as [D _].
    rewrite D in Hin. destruct Hin as [Hin|[]]. injection Hin as _ _ _ ->.
    simpl. auto.
  - destruct (log_after_adds _ _ (title_of d) (body_of d) (normalize s)
                (inr v) A) as [D _].
    rewrite D in Hin. destruct Hin as [Hin|[]]. discriminate.
Qed.

(** X15: the error stream is written only when [notify] raised or when
    the run ended in an exception nobody caught. *)
Lemma stderr_only_on_failure_or_crash (stdin : stdin_content) :
  stderr (python_run stdin) <> [] ->
  (exists t b nt msg,
     In (t, b, nt, inl msg) (dispatches (library_calls (python_run stdin))))
  \/ (exists e, python_run stdin = crashed e).
Proof.
  intros Hne. pose proof (python_run_Run stdin) as R.
  remember (python_run stdin) as o eqn:Eo. clear Eo.
  destruct R as [ | | | | | |d us s evs msg Hval Hu Hn A Hreg| ];
    simpl in Hne; try (exfalso; apply Hne; reflexivity);
    try (right; eexists; reflexivity).
  left. exists (title_of d), (body_of d), (normalize s), msg. simpl.
  destruct (log_after_adds _ _ (title_of d) (body_of d) (normalize s)
              (inl msg) A) as [D _].
  rewrite D. left; reflexivity.
Qed.

(** C7, at a failing input: with [notifyType] set to [true] the run ends
    in an uncaught [AttributeError]; the error stream receives the
    traceback although [notify] was never called. *)
Theorem stderr_written_without_dispatch :
  stderr (python_run (Decodes (VDict [(py "notifyType", VBool true)])))
  = [Traceback (AttributeError "bool" "lower")]
  /\ dispatches (library_calls
       (python_run (Decodes (VDict [(py "notifyType", VBool true)])))) = []
  /\ stdout (python_run (Decodes (VDict [(py "notifyType", VBool true)])))
     = ""
  /\ exit_code (python_run (Decodes (VDict [(py "notifyType", VBool true)])))
     = 1%Z.
Proof. repeat split. Qed.

(** ** The destination set *)

Lemma lstrip_blank (s : pystr) : forallb is_space s = true -> lstrip s = [].
Proof.
  induction s as [|c s IH]; simpl; [reflexivity|].
  intros H. apply andb_prop in H as [Hc Hs]. rewrite Hc. auto.
Qed.

(** A string of white space only trims to the empty string. *)
Lemma strip_blank (s : pystr) : forallb is_space s = true -> strip s = [].
Proof. intros H. unfold strip, rstrip. now rewrite (lstrip_blank s H). Qed.

Lemma candidates_skipped (urls : list value) :
  forallb skipped urls = true -> candidates urls = [].
Proof.
  induction urls as [|raw rest IH]; simpl; [reflexivity|].
  intros H. apply andb_prop in H as [Hr Hrest].
  destruct raw; auto. simpl in Hr. rewrite (strip_blank s Hr). simpl. auto.
Qed.

(** With no candidate among the entries (in particular with [urls]
    empty, or holding only non-strings and blank strings) the client is
    never called, so nothing is registered. *)
Lemma no_candidate_no_call (d : list (pystr * value)) (us : list value) :
  urls_of d = VList us ->
  candidates us = [] ->
  library_calls (python_run (Decodes (VDict d))) = [].
Proof.
  intros Hu Hc. pose proof (python_run_Run (Decodes (VDict d))) as R.
  remember (python_run (Decodes (VDict d))) as o eqn:Eo. clear Eo.
  inversion R; subst; try reflexivity.
  all: match goal with
       | A : adds (candidates ?x) ?evs, E : urls_of _ = VList ?x |- _ =>
           rewrite Hu in E; injection E as <-; rewrite Hc in A;
           inversion A; subst
       end.
  - reflexivity.
  - simpl in *. congruence.
  - simpl in *. congruence.
Qed.

(** A validated run that registered nothing. *)
Lemma zero_registered_outcome (d : list (pystr * value)) :
  validated d = true ->
  registered (library_calls (python_run (Decodes (VDict d)))) = 0 ->
  stdout (python_run (Decodes (VDict d))) =
    error_line "No valid notification destinations"
  /\ stderr (python_run (Decodes (VDict d))) = []
  /\ exit_code (python_run (Decodes (VDict d))) = 1%Z
  /\ dispatches (library_calls (python_run (Decodes (VDict d)))) = [].
Proof.
  intros Hv H0. pose proof (python_run_Run (Decodes (VDict d))) as R.
  remember (python_run (Decodes (VDict d))) as o eqn:Eo. clear Eo.
  unfold validated in Hv.
  apply andb_prop in Hv as [Hv Hb]. apply andb_prop in Hv as [Hv Ht].
  apply andb_prop in Hv as [Hu Hn].
  inversion R; subst; simpl in *; try congruence.
  - match goal with E : _ && _ = false |- _ =>
      rewrite Ht, Hb in E; discriminate end.
  - repeat split. eapply dispatches_adds, adds_is_add; eauto.
  - rewrite registered_app in H0. simpl in H0. lia.
  - rewrite registered_app in H0. simpl in H0. lia.
Qed.

(** C5: a request that passed validation ends with no destination
    registered in each of these cases: every entry of [urls] is a
    non-string or a string of white space only (in particular [urls] is
    empty); or the client turns down every string entry, trimmed, by
    raising or by answering a false value; or, whatever the reason, no
    [add] call of the run returned a true value.  Then standard output
    receives exactly the text
    [{"success": false, "error": "No valid notification destinations"}]
    and a line feed; nothing goes to the error stream, so no entry
    surfaces an error of its own; [notify] is never called; and the
    status is 1. *)
Theorem no_destination_failure (d : list (pystr * value))
    (us : list value) :
  validated d = true ->
  urls_of d = VList us ->
  forallb skipped us = true
  \/ (forall ap s, In (VStr s) us ->
                   rejected (fst (apobj_add ap (strip s))) = true)
  \/ registered (library_calls (python_run (Decodes (VDict d)))) = 0 ->
  stdout (python_run (Decodes (VDict d))) =
    error_json "No valid notification destinations"
  /\ stderr (python_run (Decodes (VDict d))) = []
  /\ exit_code (python_run (Decodes (VDict d))) = 1%Z
  /\ dispatches (library_calls (python_run (Decodes (VDict d)))) = [].
Proof.
  intros Hv Hu Hcase.
  change (error_json "No valid notification destinations")
    with (error_line "No valid notification destinations").
  apply (zero_registered_outcome d Hv).
  destruct Hcase as [Hs|[Hrej|H0]].
  - now rewrite (no_candidate_no_call d us Hu (candidates_skipped us Hs)).
  - now apply (rejecting_client_registers_nothing d us).
  - exact H0.
Qed.

(** ** The output stream *)

(** Unless it ends in an uncaught exception, a run prints exactly one
    line: an error object or the result object. *)
Lemma one_line_unless_crashed (stdin : stdin_content) :
  (exists e, python_run stdin = crashed e)
  \/ (exists message, stdout (python_run stdin) = error_line message)
  \/ (exists ok n, stdout (python_run stdin) = result_line ok n).
Proof.
  pose proof (python_run_Run stdin) as R.
  remember (python_run stdin) as o eqn:Eo. clear Eo.
  destruct R; simpl; eauto.
Qed.

(** C8, at two failing inputs: when standard input holds the JSON array
    [[]], or an object whose [notifyType] is the number 5, the run prints
    nothing at all on standard output and ends with status 1. *)
Theorem nothing_printed_on_crash :
  (python_run (Decodes (VList [])) = crashed (AttributeError "list" "get")
   /\ stdout (python_run (Decodes (VList []))) = "")
  /\ (python_run (Decodes (VDict [(py "notifyType", VInt 5)]))
      = crashed (AttributeError "int" "lower")
      /\ stdout (python_run (Decodes (VDict [(py "notifyType", VInt 5)])))
         = "").
Proof. repeat split. Qed.


End Contract.

(** * Further properties of the script *)

(** ** What is printed *)

Lemma printable_app (a b : string) :
  printable (a ++ b) = printable a && printable b.
Proof.
  induction a as [|c a IH]; simpl; [reflexivity|].
  now rewrite IH, andb_assoc.
Qed.

Lemma escape_char_printable (c : ascii) : printable (escape_char c) = true.
Proof. destruct c as [[] [] [] [] [] [] [] []]; reflexivity. Qed.

(** Under [ensure_ascii] a string is printed with printable characters
    only, whatever it holds. *)
Lemma escape_printable (s : string) : printable (escape s) = true.
Proof.
  induction s as [|c s IH]; simpl; [reflexivity|].
  now rewrite printable_app, escape_char_printable, IH.
Qed.

Lemma decimal_printable (n : nat) : printable (dumps_val (JInt n)) = true.
Proof.
  simpl. generalize (Nat.to_uint n) as d.
  induction d; simpl; auto.
Qed.

Lemma error_object_printable (message : string) :
  printable (json_dumps (error_object message)) = true.
Proof.
  unfold json_dumps, error_object, dumps_items, dumps_val, dumps_str.
  rewrite !printable_app, !escape_printable. reflexivity.
Qed.

Lemma result_object_printable (ok : bool) (n : nat) :
  printable (json_dumps (result_object ok n)) = true.
Proof.
  unfold json_dumps, result_object, dumps_items.
  rewrite !printable_app, decimal_printable.
  unfold dumps_str. rewrite !printable_app, !escape_printable.
  destruct ok; reflexivity.
Qed.

(** ** What [strip] leaves *)

Lemma lstrip_head (s : pystr) (c : codepoint) :
  hd_error (lstrip s) = Some c -> is_space c = false.
Proof.
  induction s as [|x s IH]; simpl; [discriminate|].
  destruct (is_space x) eqn:Ex; [exact IH|].
  simpl. intros H. injection H as <-. exact Ex.
Qed.

Lemma lstrip_suffix (s : pystr) : exists p, s = p ++ lstrip s.
Proof.
  induction s as [|x s [p IH]]; simpl.
  - exists []. reflexivity.
  - destruct (is_space x).
    + exists (x :: p). simpl. now rewrite <- IH.
    + exists []. reflexivity.
Qed.

(** A trimmed string neither starts nor ends with white space. *)
Lemma strip_ends (s : pystr) (c : codepoint) :
  hd_error (strip s) = Some c \/ hd_error (rev (strip s)) = Some c ->
  is_space c = false.
Proof.
  unfold strip, rstrip. intros [H|H].
  - destruct (lstrip_suffix (rev (lstrip s))) as [p Hp].
    apply (f_equal (@rev codepoint)) in Hp.
    rewrite rev_involutive, rev_app_distr in Hp.
    apply (lstrip_head s). rewrite Hp.
    destruct (rev (lstrip (rev (lstrip s)))); [discriminate|exact H].
  - rewrite rev_involutive in H. eapply lstrip_head; eauto.
Qed.

Lemma candidates_trimmed (urls : list value) (url : pystr) :
  In url (candidates urls) -> url <> [] /\ exists s, url = strip s.
Proof.
  induction urls as [|raw rest IH]; simpl; [contradiction|].
  destruct raw; auto.
  destruct (strip s) as [|c u] eqn:E; simpl; auto.
  intros [<-|H]; auto. split; [discriminate|]. exists s. now rewrite E.
Qed.

(** ** The call log of a whole run *)

Lemma added_urls_adds (urls : list pystr) (evs : list lib_event) :
  adds urls evs -> added_urls evs = urls.
Proof. induction 1; simpl; congruence. Qed.

Lemma added_urls_app (a b : list lib_event) :
  added_urls (a ++ b) = added_urls a ++ added_urls b.
Proof.
  induction a as [|ev a IH]; simpl; [reflexivity|].
  destruct ev; simpl; congruence.
Qed.

Lemma added_urls_In (log : list lib_event) (url : pystr) (r : lib_result) :
  In (CallAdd url r) log -> In url (added_urls log).
Proof.
  induction log as [|ev log IH]; simpl; [auto|].
  intros [->|H]; [left; reflexivity|].
  destruct ev; simpl; auto.
Qed.

Section Further.
Context {host : Host}.

(** The shape of the log: the [add] calls of the loop, one per
    candidate, then at most the one [notify] call. *)
Lemma log_shape (stdin : stdin_content) :
  library_calls (python_run stdin) = []
  \/ exists d us evs,
       stdin = Decodes (VDict d) /\ validated d = true
       /\ urls_of d = VList us /\ adds (candidates us) evs
       /\ (library_calls (python_run stdin) = evs
           \/ exists s r,
                raw_notify_type d = VStr s
                /\ registered evs <> 0
                /\ library_calls (python_run stdin) =
                     evs ++ [CallNotify (title_of d) (body_of d)
                                        (normalize s) r]).
Proof.
  pose proof (python_run_Run stdin) as R.
  remember (python_run stdin) as o eqn:Eo. clear Eo.
  destruct R as [ | | | | |d us evs Hval Hu A Hreg
                 |d us s evs msg Hval Hu Hn A Hreg
                 |d us s evs v Hval Hu Hn A Hreg]; simpl; auto.
  - right. exists d, us, evs. auto 8.
  - right. exists d, us, evs. do 4 (split; [auto|]). right.
    exists s, (inl msg). auto.
  - right. exists d, us, evs. do 4 (split; [auto|]). right.
    exists s, (inr v). auto.
Qed.

(** X1: unless the run ends in an uncaught exception, standard output
    holds exactly one line: printable ASCII characters only, then the
    single newline that ends it. *)
Theorem stdout_is_one_printable_line (stdin : stdin_content) :
  (exists e, python_run stdin = crashed e)
  \/ (exists body,
        stdout (python_run stdin) = (body ++ newline)%string
        /\ printable body = true).
Proof.
  pose proof (python_run_Run stdin) as R.
  remember (python_run stdin) as o eqn:Eo. clear Eo.
  destruct R; simpl;
    try (left; eexists; reflexivity);
    right; eexists; (split; [reflexivity|]);
    auto using error_object_printable, result_object_printable.
Qed.

(** X2: in a run there is at most one [notify] call, it is the last
    call made on the client, and every call before it is an [add]. *)
Theorem at_most_one_dispatch (stdin : stdin_content) :
  exists evs,
    forallb is_add evs = true
    /\ (library_calls (python_run stdin) = evs
        \/ exists t b nt r,
             library_calls (python_run stdin) = evs ++ [CallNotify t b nt r]).
Proof.
  destruct (log_shape stdin)
    as [E|(d & us & evs & _ & _ & _ & A & [E|(s & r & _ & _ & E)])].
  - exists []. split; auto.
  - exists evs. split; [eapply adds_is_add; eauto|auto].
  - exists evs. split; [eapply adds_is_add; eauto|]. right. eauto.
Qed.

(** X3: for a request that passed validation, the URLs handed to [add]
    are exactly the string entries of [urls], trimmed, without those
    that trim to nothing: in the order of the list, duplicates kept. *)
Theorem add_calls_are_candidates (d : list (pystr * value))
    (us : list value) :
  validated d = true ->
  urls_of d = VList us ->
  added_urls (library_calls (python_run (Decodes (VDict d)))) = candidates us.
Proof.
  intros Hv Hu.
  destruct (log_shape (Decodes (VDict d)))
    as [E|(d' & us' & evs & Ed & _ & Hu' & A & E)].
  - pose proof (python_run_Run (Decodes (VDict d))) as R.
    remember (python_run (Decodes (VDict d))) as o eqn:Eo. clear Eo.
    unfold validated in Hv.
    apply andb_prop in Hv as [Hv Hb]. apply andb_prop in Hv as [Hv Ht].
    apply andb_prop in Hv as [Hl Hn].
    inversion R; subst; simpl in E; try congruence.
    + match goal with X : _ && _ = false |- _ =>
        rewrite Ht, Hb in X; discriminate end.
    + match goal with X : adds (candidates ?u) _, Y : urls_of _ = VList ?u
        |- _ => rewrite Hu in Y; injection Y as <-;
                apply added_urls_adds in X; simpl in X; now rewrite <- X end.
    + destruct evs; discriminate.
    + destruct evs; discriminate.
  - injection Ed as <-. rewrite Hu in Hu'. injection Hu' as <-.
    destruct E as [E|(s & r & _ & _ & E)]; rewrite E.
    + now apply added_urls_adds.
    + rewrite added_urls_app, (added_urls_adds _ _ A). simpl.
      apply app_nil_r.
Qed.

(** X4: a URL handed to [add] is never empty and neither starts nor ends
    with a white-space character. *)
Theorem added_url_is_trimmed (stdin : stdin_content) (url : pystr)
    (r : lib_result) :
  In (CallAdd url r) (library_calls (python_run stdin)) ->
  url <> []
  /\ forall c, hd_error url = Some c \/ hd_error (rev url) = Some c ->
               is_space c = false.
Proof.
  intros Hin. apply added_urls_In in Hin.
  assert (Hc : exists us, In url (candidates us)).
  { destruct (log_shape stdin)
      as [E|(d & us & evs & _ & _ & _ & A & [E|(s & r' & _ & _ & E)])];
      rewrite E in Hin.
    - contradiction.
    - exists us. now rewrite (added_urls_adds _ _ A) in Hin.
    - exists us. rewrite added_urls_app, (added_urls_adds _ _ A) in Hin.
      simpl in Hin. now rewrite app_nil_r in Hin. }
  destruct Hc as [us Hc].
  apply candidates_trimmed in Hc as [Hne [s ->]].
  split; [exact Hne|]. intros c. apply strip_ends.
Qed.

(** X5: the client is called only for a request that passed every type
    check: a JSON object whose [urls] is a list and whose [title], [body]
    and [notifyType] are strings, each after its default. *)
Theorem client_untouched_unless_validated (stdin : stdin_content) :
  library_calls (python_run stdin) <> [] ->
  exists d, stdin = Decodes (VDict d) /\ validated d = true.
Proof.
  intros Hne.
  destruct (log_shape stdin) as [E|(d & us & evs & Ed & Hv & _)].
  - contradiction.
  - eauto.
Qed.



(** X7: the exit status is 0 or 1, and it is 0 exactly when [notify]
    was called and returned a true value. *)
Theorem exit_zero_iff_success (stdin : stdin_content) :
  (exit_code (python_run stdin) = 0%Z \/ exit_code (python_run stdin) = 1%Z)
  /\ (exit_code (python_run stdin) = 0%Z <->
      exists t b nt v,
        In (t, b, nt, inr v) (dispatches (library_calls (python_run stdin)))
        /\ truthy v = true).
Proof.
  pose proof (python_run_Run stdin) as R.
  remember (python_run stdin) as o eqn:Eo. clear Eo.
  destruct R as [ | | | | |d us evs Hval Hu A Hreg
                 |d us s evs msg Hval Hu Hn A Hreg
                 |d us s evs v Hval Hu Hn A Hreg]; simpl.
  1-5: split; [right; reflexivity|];
       split; [discriminate|intros (t & b & nt & v' & [] & _)].
  - split; [right; reflexivity|].
    split; [discriminate|intros (t & b & nt & v' & Hin & _)].
    rewrite (dispatches_adds _ (adds_is_add _ _ A)) in Hin. contradiction.
  - destruct (log_after_adds _ _ (title_of d) (body_of d) (normalize s)
                (inl msg) A) as [D _].
    rewrite D. split; [right; reflexivity|].
    split; [discriminate|intros (t & b & nt & v' & [Hin|[]] & _)].
    discriminate.
  - destruct (log_after_adds _ _ (title_of d) (body_of d) (normalize s)
                (inr v) A) as [D _].
    rewrite D. split; [destruct (truthy v); auto|].
    split.
    + intros H. exists (title_of d), (body_of d), (normalize s), v.
      split; [left; reflexivity|]. destruct (truthy v); [auto|discriminate].
    + intros (t & b & nt & v' & [Hin|[]] & Htr).
      injection Hin as _ _ _ <-. now rewrite Htr.
Qed.

(** X8: when the line printed is an error object, the exit status
    is 1. *)
Theorem error_object_means_exit_1 (stdin : stdin_content)
    (message : string) :
  stdout (python_run stdin) = error_line message ->
  exit_code (python_run stdin) = 1%Z.
Proof.
  intros Hout. pose proof (python_run_Run stdin) as R.
  remember (python_run stdin) as o eqn:Eo. clear Eo.
  destruct R; simpl in *; try reflexivity.
  exfalso. eapply error_line_not_result. symmetry. exact Hout.
Qed.


(** X10: an exception raised by the client never reaches the top: no
    traceback on the error stream is that of a library exception. *)
Theorem library_errors_never_escape (stdin : stdin_content) :
  forallb no_library_traceback (stderr (python_run stdin)) = true.
Proof.
  pose proof (python_run_Run stdin) as R.
  remember (python_run stdin) as o eqn:Eo. clear Eo.
  destruct R; reflexivity.
Qed.

(** X11: a run depends on the request object only through the four
    locals the script computes from it: other keys, the order of the
    keys, and the difference between a missing field and a falsy one
    change nothing. *)
Theorem only_four_fields_matter (d d' : list (pystr * value)) :
  urls_of d = urls_of d' ->
  title_of d = title_of d' ->
  body_of d = body_of d' ->
  raw_notify_type d = raw_notify_type d' ->
  python_run (Decodes (VDict d)) = python_run (Decodes (VDict d')).
Proof.
  intros Hu Ht Hb Hn.
  assert (E : main (Decodes (VDict d)) start
              = main (Decodes (VDict d')) start).
  { open_main d.
    fold (field d' "urls") (field d' "title") (field d' "body")
         (field d' "notifyType").
    fold (urls_of d') (raw_notify_type d') (title_of d') (body_of d').
    rewrite Hu, Ht, Hb, Hn. reflexivity. }
  unfold python_run. now rewrite E.
Qed.

(** X17: whatever the message and the exit code, [_fail] hands over
    what was pending, prints one line of printable ASCII characters
    ended by a newline, flushes, and raises [SystemExit] with that very
    code; it touches neither the error stream nor the client. *)
Theorem fail_prints_one_printable_line (A : Type) (message : string)
    (code : Z) (w : world) :
  exists body,
    printable body = true
    /\ @_fail host A message code w =
         (inl (SystemExit code),
          mkWorld "" (stdout_flushed w
                      ++ (stdout_pending w ++ (body ++ newline)))%string
                  (stderr_pending w) (stderr_flushed w) (apobj w) (calls w)).
Proof.
  exists (json_dumps (error_object message)).
  split; [apply error_object_printable|reflexivity].
Qed.

(** X12: when every entry of [urls] is a non-string or a string of
    white space only, the client is never called, not even with [add]. *)
Theorem skipped_entries_never_reach_client (d : list (pystr * value))
    (us : list value) :
  urls_of d = VList us ->
  forallb skipped us = true ->
  library_calls (python_run (Decodes (VDict d))) = [].
Proof.
  intros Hu Hs. apply (no_candidate_no_call d us Hu).
  now apply candidates_skipped.
Qed.

End Further.

(** * Concrete runs *)

(** The requests below are run against [delivering_host], whose client
    accepts [scheme://...] URLs and whose [notify] answers [True]. *)

(** ** Falsy fields are defaulted, not rejected *)

(** C1 as stated fails on [{"urls": false}]: the key is present and its
    value is a boolean, yet the run goes on with the empty list and the
    error printed is the one about destinations. *)
Lemma falsy_urls_not_rejected :
  dict_get [(py "urls", VBool false)] (py "urls") = Some (VBool false)
  /\ isinstance_list (VBool false) = false
  /\ @python_run delivering_host (Decodes (VDict [(py "urls", VBool false)]))
     = mkOutcome (error_json "No valid notification destinations") [] 1 []
  /\ stdout (@python_run delivering_host
               (Decodes (VDict [(py "urls", VBool false)])))
     <> error_json "Invalid urls: expected list".
Proof. repeat split. vm_compute. discriminate. Qed.

Lemma truthy_non_list_urls_rejected_witness :
  (dict_get [(py "urls", VStr mail_url)] (py "urls") = Some (VStr mail_url)
   /\ truthy (VStr mail_url) = true
   /\ isinstance_list (VStr mail_url) = false)
  /\ @python_run delivering_host (Decodes (VDict [(py "urls", VStr mail_url)]))
     = mkOutcome (error_json "Invalid urls: expected list") [] 1 [].
Proof.
  split; [repeat split|].
  apply (@truthy_non_list_urls_rejected delivering_host _ (VStr mail_url));
    reflexivity.
Defined.

(** C2 as stated fails on [{"title": 0}]: [urls] is absent and [title]
    is a number, yet the title becomes the empty string and the error
    printed is the one about destinations. *)
Lemma falsy_title_not_rejected :
  absent_or isinstance_list [(py "title", VInt 0)] "urls" = true
  /\ present_and not_str [(py "title", VInt 0)] "title"
     || present_and not_str [(py "title", VInt 0)] "body" = true
  /\ @python_run delivering_host (Decodes (VDict [(py "title", VInt 0)]))
     = mkOutcome (error_json "No valid notification destinations") [] 1 []
  /\ stdout (@python_run delivering_host
               (Decodes (VDict [(py "title", VInt 0)])))
     <> error_json "Invalid title/body".
Proof. repeat split. vm_compute. discriminate. Qed.

Lemma truthy_non_str_text_rejected_witness :
  (absent_or isinstance_list numeric_title_request "urls" = true
   /\ present_and truthy_not_str numeric_title_request "title"
      || present_and truthy_not_str numeric_title_request "body" = true
   /\ absent_or str_or_falsy numeric_title_request "notifyType" = true)
  /\ @python_run delivering_host (Decodes (VDict numeric_title_request))
     = mkOutcome (error_json "Invalid title/body") [] 1 [].
Proof.
  split; [repeat split|].
  apply (@truthy_non_str_text_rejected delivering_host); reflexivity.
Defined.

(** C9 as stated fails on [{"urls": ["mailto://user@example.org"],
    "title": 0}]: [title] is not a string, yet the URL is registered
    and the notification is sent with an empty title. *)
Lemma falsy_title_still_registers :
  present_and not_str zero_title_request "title" = true
  /\ library_calls (@python_run delivering_host
                      (Decodes (VDict zero_title_request)))
     = [CallAdd mail_url (inr (VBool true));
        CallNotify (VStr []) (VStr []) (VStr (py "info")) (inr (VBool true))]
  /\ library_calls (@python_run delivering_host
                      (Decodes (VDict zero_title_request))) <> [].
Proof. repeat split. vm_compute. discriminate. Qed.

Lemma validation_precedence_witness :
  present_and truthy_not_str doubly_invalid_request "title"
  || present_and truthy_not_str doubly_invalid_request "body" = true
  /\ present_and truthy_not_list doubly_invalid_request "urls" = true
  /\ library_calls (@python_run delivering_host
                      (Decodes (VDict doubly_invalid_request))) = []
  /\ @python_run delivering_host (Decodes (VDict doubly_invalid_request))
     = mkOutcome (error_json "Invalid urls: expected list") [] 1 []
  /\ stdout (@python_run delivering_host
               (Decodes (VDict doubly_invalid_request)))
     <> error_json "Invalid title/body".
Proof.
  split; [reflexivity|]. split; [reflexivity|].
  destruct (@validation_precedence delivering_host
              doubly_invalid_request eq_refl)
    as [Hcalls Hurls].
  split; [exact Hcalls|apply Hurls; reflexivity].
Defined.

(** ** Complete runs *)

Example sample_run :
  @python_run delivering_host sample_request =
    mkOutcome (result_line true 1) [] 0
      [CallAdd mail_url (inr (VBool true));
       CallAdd (py "nope") (inr (VBool false));
       CallNotify (VStr (py "Build")) (VStr (py "done")) (VStr (py "info"))
                  (inr (VBool true))].
Proof. reflexivity. Qed.

Example result_line_text :
  result_line true 1 =
    ("{" ++ chr 34 ++ "success" ++ chr 34 ++ ": true, "
         ++ chr 34 ++ "destinations" ++ chr 34 ++ ": 1}" ++ chr 10)%string.
Proof. reflexivity. Qed.

Example error_line_text :
  error_line "Invalid JSON payload" =
    ("{" ++ chr 34 ++ "success" ++ chr 34 ++ ": false, "
         ++ chr 34 ++ "error" ++ chr 34 ++ ": "
         ++ chr 34 ++ "Invalid JSON payload" ++ chr 34 ++ "}" ++ chr 10)%string.
Proof. reflexivity. Qed.

Lemma completed_dispatch_reported_witness :
  In (VStr (py "Build"), VStr (py "done"), VStr (py "info"), inr (VBool true))
     (dispatches (library_calls (@python_run delivering_host sample_request)))
  /\ (stdout (@python_run delivering_host sample_request) = result_json true 1
      /\ stderr (@python_run delivering_host sample_request) = []
      /\ exit_code (@python_run delivering_host sample_request) = 0%Z).
Proof.
  split; [left; reflexivity|].
  apply (@completed_dispatch_reported delivering_host sample_request
           (VStr (py "Build")) (VStr (py "done")) (VStr (py "info"))
           (VBool true)).
  left; reflexivity.
Defined.

Lemma no_destination_failure_witness :
  (validated no_destination_request = true
   /\ urls_of no_destination_request
      = VList [VInt 3; VStr (py "   "); VStr (py "nope")]
   /\ forall (ap : @Apobj delivering_host) s,
        In (VStr s) [VInt 3; VStr (py "   "); VStr (py "nope")] ->
        rejected (fst (@apobj_add delivering_host ap (strip s))) = true)
  /\ (stdout (@python_run delivering_host
                (Decodes (VDict no_destination_request)))
        = error_json "No valid notification destinations"
      /\ stderr (@python_run delivering_host
                   (Decodes (VDict no_destination_request))) = []
      /\ exit_code (@python_run delivering_host
                      (Decodes (VDict no_destination_request))) = 1%Z
      /\ dispatches (library_calls (@python_run delivering_host
                       (Decodes (VDict no_destination_request)))) = []).
Proof.
  assert (Hrej : forall (ap : @Apobj delivering_host) s,
            In (VStr s) [VInt 3; VStr (py "   "); VStr (py "nope")] ->
            rejected (fst (@apobj_add delivering_host ap (strip s))) = true).
  { intros ap s [H|[H|[H|[]]]]; try discriminate;
      injection H as <-; reflexivity. }
  split; [split; [reflexivity|split; [reflexivity|exact Hrej]]|].
  apply (@no_destination_failure delivering_host no_destination_request
           [VInt 3; VStr (py "   "); VStr (py "nope")]).
  - reflexivity.
  - reflexivity.
  - right. left. exact Hrej.
Defined.


(** A client whose [notify] raises: the failure is reported on both
    streams. *)
Example dispatch_failure_run :
  @python_run (scripted_host by_scheme (inl (py "timed out"))) sample_request =
    mkOutcome (error_line "Apprise notify failed")
      [Text (py "Apprise notify failed: timed out" ++ [10%N])] 1
      [CallAdd mail_url (inr (VBool true));
       CallAdd (py "nope") (inr (VBool false));
       CallNotify (VStr (py "Build")) (VStr (py "done")) (VStr (py "info"))
                  (inl (py "timed out"))].
Proof. reflexivity. Qed.

(** A client whose [add] raises on every URL: each failure is swallowed
    and the run ends on the empty destination set. *)
Example registration_failure_run :
  @python_run (scripted_host (fun _ => inl (py "unsupported"))
                             (inr (VBool true)))
              sample_request =
    mkOutcome (error_line "No valid notification destinations") [] 1
      [CallAdd mail_url (inl (py "unsupported"));
       CallAdd (py "nope") (inl (py "unsupported"))].
Proof. reflexivity. Qed.

(** ** Runs for the further properties *)

Lemma add_calls_are_candidates_witness :
  (validated padded_request = true
   /\ urls_of padded_request =
        VList [VStr (py "  mailto://user@example.org "); VInt 3;
               VStr (py "   "); VStr (py "nope")])
  /\ added_urls (library_calls (@python_run delivering_host
                                  (Decodes (VDict padded_request))))
     = candidates [VStr (py "  mailto://user@example.org "); VInt 3;
                   VStr (py "   "); VStr (py "nope")].
Proof.
  split; [split; reflexivity|].
  apply (@add_calls_are_candidates delivering_host padded_request);
    reflexivity.
Defined.

Lemma added_url_is_trimmed_witness :
  In (CallAdd mail_url (inr (VBool true)))
     (library_calls (@python_run delivering_host sample_request))
  /\ (mail_url <> []
      /\ forall c,
           hd_error mail_url = Some c \/ hd_error (rev mail_url) = Some c ->
           is_space c = false).
Proof.
  split; [left; reflexivity|].
  apply (@added_url_is_trimmed delivering_host sample_request mail_url
           (inr (VBool true))).
  left; reflexivity.
Defined.

Lemma client_untouched_unless_validated_witness :
  library_calls (@python_run delivering_host sample_request) <> []
  /\ exists d, sample_request = Decodes (VDict d) /\ validated d = true.
Proof.
  split; [vm_compute; discriminate|].
  apply (@client_untouched_unless_validated delivering_host sample_request).
  vm_compute; discriminate.
Defined.


Lemma error_object_means_exit_1_witness :
  stdout (@python_run delivering_host
            (Decodes (VDict doubly_invalid_request)))
  = error_line "Invalid urls: expected list"
  /\ exit_code (@python_run delivering_host
                  (Decodes (VDict doubly_invalid_request))) = 1%Z.
Proof.
  split; [reflexivity|].
  apply (@error_object_means_exit_1 delivering_host
           (Decodes (VDict doubly_invalid_request))
           "Invalid urls: expected list").
  reflexivity.
Defined.

Lemma only_four_fields_matter_witness :
  (urls_of untitled_request = urls_of null_title_request
   /\ title_of untitled_request = title_of null_title_request
   /\ body_of untitled_request = body_of null_title_request
   /\ raw_notify_type untitled_request = raw_notify_type null_title_request)
  /\ @python_run delivering_host (Decodes (VDict untitled_request))
     = @python_run delivering_host (Decodes (VDict null_title_request)).
Proof.
  split; [repeat split|].
  apply (@only_four_fields_matter delivering_host
           untitled_request null_title_request); reflexivity.
Defined.

Lemma skipped_entries_never_reach_client_witness :
  (urls_of blank_request
   = VList [VInt 3; VStr (py "   "); VNone; VStr [9%N; 10%N]]
   /\ forallb skipped [VInt 3; VStr (py "   "); VNone; VStr [9%N; 10%N]]
      = true)
  /\ library_calls (@python_run delivering_host
                      (Decodes (VDict blank_request))) = [].
Proof.
  split; [split; reflexivity|].
  apply (@skipped_entries_never_reach_client delivering_host blank_request
           [VInt 3; VStr (py "   "); VNone; VStr [9%N; 10%N]]);
    reflexivity.
Defined.

Lemma dispatch_exception_reported_witness :
  In (VStr (py "Build"), VStr (py "done"), VStr (py "info"),
      inl (py "timed out"))
     (dispatches (library_calls (@python_run failing_host sample_request)))
  /\ (stdout (@python_run failing_host sample_request)
        = error_json "Apprise notify failed"
      /\ stderr (@python_run failing_host sample_request)
         = [Text (notify_failed_text (py "timed out"))]
      /\ exit_code (@python_run failing_host sample_request) = 1%Z).
Proof.
  split; [left; reflexivity|].
  apply (@dispatch_exception_reported failing_host sample_request
           (VStr (py "Build")) (VStr (py "done")) (VStr (py "info"))
           (py "timed out")).
  left; reflexivity.
Defined.

Lemma dispatch_receives_normalized_witness :
  In (VStr (py " Disk "), VStr (py "90% full"), VStr (py "warning"),
      inr (VBool true))
     (dispatches (library_calls (@python_run delivering_host warning_request)))
  /\ exists d s,
       warning_request = Decodes (VDict d)
       /\ raw_notify_type d = VStr s
       /\ VStr (py " Disk ") = title_of d
       /\ VStr (py "90% full") = body_of d
       /\ (known_severity (@str_lower delivering_host s) ->
           VStr (py "warning") = VStr (@str_lower delivering_host s))
       /\ (~ known_severity (@str_lower delivering_host s) ->
           VStr (py "warning") = VStr (py "info")).
Proof.
  split; [left; reflexivity|].
  apply (@dispatch_receives_normalized delivering_host warning_request
           (VStr (py " Disk ")) (VStr (py "90% full")) (VStr (py "warning"))
           (inr (VBool true))).
  left; reflexivity.
Defined.

(** The recognised severity of [warning_request] reaches [notify] in
    lower case, with the title untrimmed. *)
Example warning_run :
  @python_run delivering_host warning_request =
    mkOutcome (result_json true 1) [] 0
      [CallAdd mail_url (inr (VBool true));
       CallNotify (VStr (py " Disk ")) (VStr (py "90% full"))
                  (VStr (py "warning")) (inr (VBool true))].
Proof. reflexivity. Qed.

Lemma stderr_only_on_failure_or_crash_witness :
  stderr (@python_run failing_host sample_request) <> []
  /\ ((exists t b nt msg,
         In (t, b, nt, inl msg)
            (dispatches (library_calls
                           (@python_run failing_host sample_request))))
      \/ (exists e, @python_run failing_host sample_request = crashed e)).
Proof.
  split; [vm_compute; discriminate|].
  apply (@stderr_only_on_failure_or_crash failing_host sample_request).
  vm_compute; discriminate.
Defined.
